(** * The manual-activation registration backend

    A shallow embedding of [registration/backends/manual/__init__.py]:
    the class [ManualActivation] with its six methods, over an explicit
    model of the Python values it handles, of the module's global
    namespace, and of the framework objects it calls (the site resolver,
    the account directory, the signal bus, the settings object). *)

From Stdlib Require Import ZArith List.
From stdpp Require Import base gmap strings list.

Local Open Scope string_scope.
Set Warnings "-register-all".

(** ** Python values *)

(** The values that flow through the backend.  [VNamed q] is an object
    reached by an import, known by its qualified name (a module, a class,
    the settings object); [VInst c i] is the instance number [i] of class
    [c] (a request, a [User], a [Site], the backend itself). *)
Inductive value : Type :=
| VNone
| VBool (b : bool)
| VInt (n : Z)
| VStr (s : string)
| VTuple (items : list value)
| VDict (items : list (value * value))
| VNamed (qualname : string)
| VInst (cls : string) (oid : nat).

(** Truth value testing, as [if activated:] does it.  Instances of classes
    that define neither [__bool__] nor [__len__] (Django models, requests)
    are true. *)
Definition truthy (v : value) : bool :=
  match v with
  | VNone => false
  | VBool b => b
  | VInt n => negb (Z.eqb n 0)
  | VStr s => negb (String.eqb s "")
  | VTuple items => match items with [] => false | _ :: _ => true end
  | VDict items => match items with [] => false | _ :: _ => true end
  | VNamed _ => true
  | VInst _ _ => true
  end.

(** [obj.__class__]. *)
Definition class_of (v : value) : value :=
  match v with
  | VNone => VNamed "NoneType"
  | VBool _ => VNamed "bool"
  | VInt _ => VNamed "int"
  | VStr _ => VNamed "str"
  | VTuple _ => VNamed "tuple"
  | VDict _ => VNamed "dict"
  | VNamed _ => VNamed "type"
  | VInst cls _ => VNamed cls
  end.

(** ** Exceptions and outcomes *)

Inductive exn : Type :=
| KeyError (key : string)       (* a missing dictionary key *)
| NameError (name : string)     (* an unbound global name *)
| Raised (e : value).           (* an exception object raised by a collaborator *)

Inductive outcome (A : Type) : Type :=
| Return (a : A)
| Raise (e : exn).
Arguments Return {A} a.
Arguments Raise {A} e.

(** ** Calls that leave the module *)

Inductive signal : Type := user_registered | user_activated.

(** One constructor per call the module makes on an object it does not
    define, with the arguments the call site passes. *)
Inductive event : Type :=
| GetCurrent                                   (* Site.objects.get_current() *)
| MakeRequestSite (request : value)            (* RequestSite(request) *)
| CreateInactiveUser (username email password site : value) (send_email : bool)
| ActivateUser (activation_key : value)
| Call (f : value) (args : list value)         (* f(args), f a module-level callable *)
| Send (sig : signal) (sender user request : value).

Definition is_call (ev : event) : bool :=
  match ev with Call _ _ => true | _ => false end.

Definition is_create (ev : event) : bool :=
  match ev with CreateInactiveUser _ _ _ _ _ => true | _ => false end.

Definition is_site_lookup (ev : event) : bool :=
  match ev with GetCurrent | MakeRequestSite _ => true | _ => false end.

(** ** The monad of method bodies

    A method body runs in a state of the outside world [W] (database,
    mailbox, subscribers), ends by returning or raising, and leaves the
    log of the outside calls it made, in order. *)

Record run (W A : Type) : Type := Run {
  result : outcome A;
  log : list event;
  final : W
}.
Arguments Run {W A} result log final.
Arguments result {W A} r.
Arguments log {W A} r.
Arguments final {W A} r.

Definition py (W A : Type) : Type := W -> run W A.

Definition py_return {W A} (a : A) : py W A :=
  fun w => Run (Return a) [] w.

Definition py_raise {W A} (e : exn) : py W A :=
  fun w => Run (Raise e) [] w.

Definition py_bind {W A B} (m : py W A) (k : A -> py W B) : py W B :=
  fun w =>
    let r := m w in
    match result r with
    | Return a =>
        let r' := k a (final r) in
        Run (result r') (log r ++ log r') (final r')
    | Raise e => Run (Raise e) (log r) (final r)
    end.

Notation "x <- m ;; k" := (py_bind m (fun x => k))
  (at level 100, m at next level, right associativity).

(** Reading the state of the world, leaving it as it is. *)
Definition observe {W A} (f : W -> A) : py W A :=
  fun w => Run (Return (f w)) [] w.

(** An outside call: run the collaborator on the world and log the call. *)
Definition invoke {W} (ev : event) (f : W -> outcome value * W) : py W value :=
  fun w => let '(r, w') := f w in Run r [ev] w'.

(** [d[key]] on a dictionary with string keys. *)
Definition subscript {W} (d : gmap string value) (key : string) : py W value :=
  match d !! key with
  | Some v => py_return v
  | None => py_raise (KeyError key)
  end.

(** A reference to a global name from a method body: the module namespace
    is searched when the reference is evaluated (none of the names used
    below is a builtin). *)
Definition load_global {W} (G : gmap string value) (name : string) : py W value :=
  match G !! name with
  | Some v => py_return v
  | None => py_raise (NameError name)
  end.

(** ** The module namespace

    The names bound by the module's top-level statements: the four import
    statements and the class statement.  Nothing else in the file binds a
    global name. *)
Definition module_globals : gmap string value :=
  <["settings" := VNamed "django.conf.settings"]>
  (<["RequestSite" := VNamed "django.contrib.sites.models.RequestSite"]>
  (<["Site" := VNamed "django.contrib.sites.models.Site"]>
  (<["signals" := VNamed "registration.signals"]>
  (<["RegistrationForm" := VNamed "registration.forms.RegistrationForm"]>
  (<["RegistrationProfile" := VNamed "registration.models.RegistrationProfile"]>
  (<["ManualActivation" := VNamed "registration.backends.manual.ManualActivation"]>
   ∅)))))).

(** ** The framework behind the imported names *)

(** [django.contrib.sites.models]: the flag [Site._meta.installed], the
    manager method [Site.objects.get_current] and the class [RequestSite]. *)
Class SiteResolver (W : Type) := {
  sites_installed : W -> bool;
  get_current : W -> outcome value * W;
  RequestSite : value -> W -> outcome value * W
}.

(** [RegistrationProfile.objects]. *)
Class AccountDirectory (W : Type) := {
  create_inactive_user :
    value -> value -> value -> value -> bool -> W -> outcome value * W;
  activate_user : value -> W -> outcome value * W
}.

(** [registration.signals]: [sig.send(sender=.., user=.., request=..)]. *)
Class EventBus (W : Type) := {
  send : signal -> value -> value -> value -> W -> outcome value * W
}.

(** [django.conf.settings]: the attributes that are set. *)
Class Settings (W : Type) := {
  settings : W -> gmap string value
}.

(** Calling a callable object held in a variable. *)
Class Callables (W : Type) := {
  call : value -> list value -> W -> outcome value * W
}.

(** ** class ManualActivation *)

Section ManualActivation.
Context {W : Type}.
Context `{SiteResolver W, AccountDirectory W, EventBus W, Settings W, Callables W}.

(** [G] is the module namespace at the time of the call, [self] the
    backend instance. *)
Variable G : gmap string value.
Variable self : value.

(** Lines 45-48 of [register]: the site of the request. *)
Definition current_site (request : value) : py W value :=
  _Site <- load_global G "Site" ;;
  installed <- observe sites_installed ;;
  if (installed : bool) then
    invoke GetCurrent get_current
  else
    _RequestSite <- load_global G "RequestSite" ;;
    invoke (MakeRequestSite request) (RequestSite request).

Definition register (request : value) (kwargs : gmap string value) : py W value :=
  username <- subscript kwargs "username" ;;
  email <- subscript kwargs "email" ;;
  password <- subscript kwargs "password1" ;;
  site <- current_site request ;;
  _RegistrationProfile <- load_global G "RegistrationProfile" ;;
  new_user <- invoke (CreateInactiveUser username email password site false)
                     (create_inactive_user username email password site false) ;;
  notify <- load_global G "send_new_user_notification" ;;
  _ <- invoke (Call notify [new_user]) (call notify [new_user]) ;;
  _signals <- load_global G "signals" ;;
  _ <- invoke (Send user_registered (class_of self) new_user request)
              (send user_registered (class_of self) new_user request) ;;
  py_return new_user.

Definition activate (request activation_key : value) : py W value :=
  _RegistrationProfile <- load_global G "RegistrationProfile" ;;
  activated <- invoke (ActivateUser activation_key) (activate_user activation_key) ;;
  _ <- (if truthy activated then
          _signals <- load_global G "signals" ;;
          invoke (Send user_activated (class_of self) activated request)
                 (send user_activated (class_of self) activated request)
        else py_return VNone) ;;
  py_return activated.

(** [getattr(settings, 'VENDOR_REGISTRATION_OPEN', True)]. *)
Definition registration_allowed (request : value) : py W value :=
  _settings <- load_global G "settings" ;;
  attrs <- observe settings ;;
  py_return (default (VBool true) (attrs !! "VENDOR_REGISTRATION_OPEN")).

Definition get_form_class (request : value) : py W value :=
  load_global G "RegistrationAndProfileForm".

Definition post_registration_redirect (request user : value) : py W value :=
  py_return (VTuple [VStr "registration_complete"; VTuple []; VDict []]).

Definition post_activation_redirect (request user : value) : py W value :=
  py_return (VTuple [VStr "registration_actication_complete"; VTuple []; VDict []]).

End ManualActivation.

(** The calls of a log that publish on the signal bus, that notify, that
    create an account. *)
Definition is_publish (ev : event) : bool :=
  match ev with Send _ _ _ _ => true | _ => false end.

Definition published (l : list event) : list event := List.filter is_publish l.
Definition notified (l : list event) : list event := List.filter is_call l.
Definition created (l : list event) : list event := List.filter is_create l.

(** ** A small in-memory framework

    An account directory that keeps, per username, the number of the user
    and whether it is active; the activation key of an account is its
    username.  Used to run the backend on concrete inputs. *)
Module Demo.

Record world : Type := World {
  accounts : gmap string (nat * bool);
  config : gmap string value;
  multi_site : bool
}.

Definition new_account (username : value) (w : world) : outcome value * world :=
  match username with
  | VStr u =>
      match accounts w !! u with
      | Some _ => (Raise (Raised (VInst "IntegrityError" 0)), w)
      | None =>
          let uid := size (accounts w) in
          (Return (VInst "User" uid),
           World (<[u := (uid, false)]> (accounts w)) (config w) (multi_site w))
      end
  | _ => (Raise (Raised (VInst "TypeError" 0)), w)
  end.

Definition activate_account (key : value) (w : world) : outcome value * world :=
  match key with
  | VStr k =>
      match accounts w !! k with
      | Some (uid, false) =>
          (Return (VInst "User" uid),
           World (<[k := (uid, true)]> (accounts w)) (config w) (multi_site w))
      | _ => (Return (VBool false), w)
      end
  | _ => (Return (VBool false), w)
  end.

#[global] Instance sites : SiteResolver world := {
  sites_installed := multi_site;
  get_current w := (Return (VInst "Site" 1), w);
  RequestSite request w := (Return (VInst "RequestSite" 0), w)
}.

#[global] Instance directory : AccountDirectory world := {
  create_inactive_user username email password site send_email := new_account username;
  activate_user := activate_account
}.

#[global] Instance bus : EventBus world := {
  send sig sender user request w := (Return (VTuple []), w)
}.

#[global] Instance conf : Settings world := {
  settings := config
}.

#[global] Instance functions : Callables world := {
  call f args w := (Return VNone, w)
}.

Definition empty_world : world := World ∅ ∅ true.
Definition backend : value := VInst "registration.backends.manual.ManualActivation" 0.
Definition request : value := VInst "django.http.HttpRequest" 0.

Definition alice : gmap string value :=
  <["username" := VStr "alice"]>
  (<["email" := VStr "alice@example.com"]>
  (<["password1" := VStr "s3cret"]>
  (<["password2" := VStr "s3cret"]> ∅))).

(** A form that posted its password under ["password"]. *)
Definition password_form : gmap string value :=
  <["username" := VStr "alice"]>
  (<["email" := VStr "alice@example.com"]>
  (<["password" := VStr "s3cret"]> ∅)).

(** The world once alice has registered; a deployment without the sites
    application; a configuration that sets [REGISTRATION_OPEN] only. *)
Definition alice_registered : world := World (<["alice" := (0, false)]> ∅) ∅ true.
Definition single_site : world := World ∅ ∅ false.
Definition closed_by_old_option : world :=
  World ∅ (<["REGISTRATION_OPEN" := VBool false]> ∅) true.

(** The module namespace once a function has been written for the
    notification. *)
Definition notifier : value := VNamed "send_new_user_notification".
Definition completed_globals : gmap string value :=
  <["send_new_user_notification" := notifier]> module_globals.

End Demo.

(** ** A framework with outages

    A second in-memory framework, in which the site table, the mail
    transport and a signal receiver can each be out of order; the world
    keeps the accounts created and activated and the mail sent, so that
    what a failed call leaves behind can be read off it. *)
Module Outage.

Record world : Type := World {
  usernames : list value;     (* accounts created, newest first *)
  activated : list value;     (* keys activated, newest first *)
  outbox : nat;               (* mail sent *)
  sites_down : bool;
  mail_down : bool;
  receiver_down : bool
}.

#[global] Instance sites : SiteResolver world := {
  sites_installed w := true;
  get_current w :=
    if sites_down w then (Raise (Raised (VInst "Site.DoesNotExist" 0)), w)
    else (Return (VInst "Site" 1), w);
  RequestSite request w := (Return (VInst "RequestSite" 0), w)
}.

#[global] Instance directory : AccountDirectory world := {
  create_inactive_user username email password site send_email w :=
    (Return (VInst "User" (length (usernames w))),
     World (username :: usernames w) (activated w) (outbox w)
           (sites_down w) (mail_down w) (receiver_down w));
  activate_user key w :=
    (Return (VInst "User" 0),
     World (usernames w) (key :: activated w) (outbox w)
           (sites_down w) (mail_down w) (receiver_down w))
}.

#[global] Instance bus : EventBus world := {
  send sig sender user request w :=
    if receiver_down w then (Raise (Raised (VInst "ReceiverError" 0)), w)
    else (Return (VTuple []), w)
}.

#[global] Instance functions : Callables world := {
  call f args w :=
    if mail_down w then (Raise (Raised (VInst "SMTPException" 0)), w)
    else (Return VNone,
          World (usernames w) (activated w) (S (outbox w))
                (sites_down w) (mail_down w) (receiver_down w))
}.

Definition healthy : world := World [] [] 0 false false false.
Definition no_site : world := World [] [] 0 true false false.
Definition no_mail : world := World [] [] 0 false true false.
Definition no_receiver : world := World [] [] 0 false false true.

End Outage.

(** ** A framework whose database is down

    Every call on the account directory raises; the world counts the
    attempts. *)
Module Offline.

Record world : Type := World { attempts : nat }.

#[global] Instance directory : AccountDirectory world := {
  create_inactive_user username email password site send_email w :=
    (Raise (Raised (VInst "OperationalError" 0)), World (S (attempts w)));
  activate_user key w :=
    (Raise (Raised (VInst "OperationalError" 0)), World (S (attempts w)))
}.

#[global] Instance bus : EventBus world := {
  send sig sender user request w := (Return (VTuple []), w)
}.

Definition start : world := World 0.

End Offline.

(** ** Equations of the monad *)

Section Equations.
Context {W : Type}.

Lemma run_eta {A} (r : run W A) : Run (result r) (log r) (final r) = r.
Proof. by destruct r. Qed.

Lemma bind_return {A B} (a : A) (k : A -> py W B) (w : W) :
  py_bind (py_return a) k w = k a w.
Proof. unfold py_bind, py_return; simpl. apply run_eta. Qed.

Lemma bind_raise {A B} (e : exn) (k : A -> py W B) (w : W) :
  py_bind (py_raise e) k w = Run (Raise e) [] w.
Proof. reflexivity. Qed.

Lemma bind_assoc {A B C} (m : py W A) (k1 : A -> py W B) (k2 : B -> py W C) (w : W) :
  py_bind (py_bind m k1) k2 w = py_bind m (fun a => py_bind (k1 a) k2) w.
Proof.
  unfold py_bind; simpl.
  destruct (m w) as [[a|e] l1 w1]; simpl; [|reflexivity].
  destruct (k1 a w1) as [[b|e] l2 w2]; simpl; [|reflexivity].
  by rewrite app_assoc.
Qed.

Lemma bind_observe {A B} (f : W -> A) (k : A -> py W B) (w : W) :
  py_bind (observe f) k w = k (f w) w.
Proof. unfold py_bind, observe; simpl. apply run_eta. Qed.

Lemma bind_invoke {B} (ev : event) (f : W -> outcome value * W)
      (k : value -> py W B) (w : W) :
  py_bind (invoke ev f) k w =
  match f w with
  | (Return v, w') => Run (result (k v w')) (ev :: log (k v w')) (final (k v w'))
  | (Raise e, w') => Run (Raise e) [ev] w'
  end.
Proof. unfold py_bind, invoke. by destruct (f w) as [[v|e] w']. Qed.

Lemma bind_subscript {B} (d : gmap string value) (key : string)
      (k : value -> py W B) (w : W) :
  py_bind (subscript d key) k w =
  match d !! key with
  | Some v => k v w
  | None => Run (Raise (KeyError key)) [] w
  end.
Proof.
  unfold subscript. destruct (d !! key); [apply bind_return | apply bind_raise].
Qed.

Lemma bind_load_global {B} (G : gmap string value) (name : string)
      (k : value -> py W B) (w : W) :
  py_bind (load_global G name) k w =
  match G !! name with
  | Some v => k v w
  | None => Run (Raise (NameError name)) [] w
  end.
Proof.
  unfold load_global. destruct (G !! name); [apply bind_return | apply bind_raise].
Qed.

(** A namespace that extends the module's keeps what the imports bound. *)
Lemma imported (G : gmap string value) (name : string) (v : value) :
  module_globals ⊆ G -> module_globals !! name = Some v -> G !! name = Some v.
Proof. intros HG Hn. exact (lookup_weaken _ _ _ _ Hn HG). Qed.

End Equations.

Ltac py_simpl :=
  repeat first
    [ rewrite bind_assoc
    | rewrite bind_subscript
    | rewrite bind_load_global
    | rewrite bind_observe
    | rewrite bind_invoke
    | rewrite bind_return
    | rewrite bind_raise ].

(** ** The query methods and the redirects *)

Section Queries.
Context {W : Type}.
Context `{SiteResolver W, AccountDirectory W, EventBus W, Settings W, Callables W}.

(** C2, as the code has it: [registration_allowed] answers with the value
    of the option [VENDOR_REGISTRATION_OPEN], and with [True] when that
    option is absent; so it returns true when the option is absent or set
    to true and false when it is set to false.  It calls nothing outside
    the module and leaves the world as it found it. *)
Theorem registration_allowed_vendor_option (request : value) (w : W) :
  registration_allowed module_globals request w =
  Run (Return (match settings w !! "VENDOR_REGISTRATION_OPEN" with
               | None => VBool true
               | Some v => v
               end)) [] w.
Proof.
  unfold registration_allowed. py_simpl.
  change (module_globals !! "settings") with (Some (VNamed "django.conf.settings")).
  py_simpl. unfold py_return.
  by destruct (settings w !! "VENDOR_REGISTRATION_OPEN").
Qed.

(** Once the name is bound, [get_form_class] is the lookup of that name. *)
Lemma get_form_class_bound (G : gmap string value) (form request : value) (w : W) :
  G !! "RegistrationAndProfileForm" = Some form ->
  get_form_class G request w = Run (Return form) [] w.
Proof. intros HG. unfold get_form_class, load_global. by rewrite HG. Qed.

(** C3: as the module stands, [get_form_class] raises [NameError] on every
    call: the name it returns, [RegistrationAndProfileForm], is bound by
    no statement of the module (the import binds [RegistrationForm]).  In
    any namespace the method is the lookup of that one name: it calls
    nothing and leaves the world as it found it. *)
Theorem get_form_class_name_error (request : value) (w : W) :
  get_form_class module_globals request w
    = Run (Raise (NameError "RegistrationAndProfileForm")) [] w
  /\ forall G : gmap string value,
      get_form_class G request w
      = Run (match G !! "RegistrationAndProfileForm" with
             | Some form => Return form
             | None => Raise (NameError "RegistrationAndProfileForm")
             end) [] w.
Proof.
  split; [reflexivity|].
  intros G. unfold get_form_class, load_global.
  by destruct (G !! "RegistrationAndProfileForm").
Qed.

(** C9: each redirect method returns its route name with an empty tuple
    and an empty dictionary, calls nothing, and gives the same answer for
    every request and every user. *)
Theorem redirects_are_constant (request user request' user' : value) (w : W) :
  post_registration_redirect request user w =
    Run (Return (VTuple [VStr "registration_complete"; VTuple []; VDict []])) [] w
  /\ post_activation_redirect request user w =
    Run (Return (VTuple [VStr "registration_actication_complete"; VTuple []; VDict []])) [] w
  /\ post_registration_redirect request user w = post_registration_redirect request' user' w
  /\ post_activation_redirect request user w = post_activation_redirect request' user' w.
Proof. repeat split. Qed.

End Queries.

(** C2, as the spec words it, fails: with [REGISTRATION_OPEN] set to
    [False] (and nothing else set) registration is still allowed. *)
Lemma registration_open_is_not_read :
  settings Demo.closed_by_old_option !! "REGISTRATION_OPEN" = Some (VBool false)
  /\ result (registration_allowed module_globals Demo.request Demo.closed_by_old_option)
     = Return (VBool true)
  /\ result (registration_allowed module_globals Demo.request Demo.closed_by_old_option)
     <> Return (VBool false).
Proof. vm_compute. repeat split; congruence. Qed.

(** ** [activate] *)

Section Activate.
Context {W : Type}.
Context `{SiteResolver W, AccountDirectory W, EventBus W, Settings W, Callables W}.
Variable G : gmap string value.
Hypothesis HG : module_globals ⊆ G.
Variables self request key : value.

(** Every path through [activate]. *)
Lemma activate_run (w : W) :
  activate G self request key w =
  match activate_user key w with
  | (Return v, w1) =>
      let publish := Send user_activated (class_of self) v request in
      if truthy v then
        match send user_activated (class_of self) v request w1 with
        | (Return _, w2) => Run (Return v) [ActivateUser key; publish] w2
        | (Raise e, w2) => Run (Raise e) [ActivateUser key; publish] w2
        end
      else Run (Return v) [ActivateUser key] w1
  | (Raise e, w1) => Run (Raise e) [ActivateUser key] w1
  end.
Proof.
  unfold activate. py_simpl.
  rewrite (imported G "RegistrationProfile" _ HG eq_refl).
  py_simpl.
  destruct (activate_user key w) as [[v|e] w1]; [|reflexivity].
  destruct (truthy v) eqn:Hv; py_simpl; [|reflexivity].
  rewrite (imported G "signals" _ HG eq_refl). py_simpl.
  by destruct (send user_activated (class_of self) v request w1) as [[x|e] w2].
Qed.

End Activate.

(** C4: [activate] runs the dispatch of [user_activated] exactly when
    [activate_user] returned a true value: then it runs it once, on the
    state [activate_user] left, with the activated user, the request and
    the class of the backend as sender, and ends in the state the dispatch
    left.  When [activate_user] returned a false value (or raised) nothing
    is dispatched and [activate] ends in the state [activate_user] left. *)
Theorem activate_publishes_iff_truthy
    {W : Type} `{AccountDirectory W, EventBus W}
    (G : gmap string value) (self request key : value) (w : W) :
  module_globals ⊆ G ->
  activate G self request key w =
    match activate_user key w with
    | (Return v, w1) =>
        if truthy v then
          match send user_activated (class_of self) v request w1 with
          | (Return _, w2) =>
              Run (Return v)
                  [ActivateUser key; Send user_activated (class_of self) v request] w2
          | (Raise x, w2) =>
              Run (Raise x)
                  [ActivateUser key; Send user_activated (class_of self) v request] w2
          end
        else Run (Return v) [ActivateUser key] w1
    | (Raise x, w1) => Run (Raise x) [ActivateUser key] w1
    end
  /\ published (log (activate G self request key w)) =
    match fst (activate_user key w) with
    | Return v =>
        if truthy v then [Send user_activated (class_of self) v request] else []
    | Raise _ => []
    end.
Proof.
  intros HG. rewrite (activate_run G HG). split; [reflexivity|].
  destruct (activate_user key w) as [[v|e] w1]; simpl; [|reflexivity].
  destruct (truthy v); [|reflexivity].
  by destruct (send user_activated (class_of self) v request w1) as [[x|e] w2].
Qed.

(** The key of a registered account, then an unknown key. *)
Lemma activate_publishes_iff_truthy_demo :
  (activate module_globals Demo.backend Demo.request (VStr "alice")
            Demo.alice_registered
   = Run (Return (VInst "User" 0))
         [ActivateUser (VStr "alice");
          Send user_activated (class_of Demo.backend) (VInst "User" 0) Demo.request]
         (Demo.World (<["alice" := (0, true)]> ∅) ∅ true)
   /\ published (log (activate module_globals Demo.backend Demo.request (VStr "alice")
                               Demo.alice_registered))
      = [Send user_activated (class_of Demo.backend) (VInst "User" 0) Demo.request])
  /\ (activate module_globals Demo.backend Demo.request (VStr "bob")
               Demo.alice_registered
      = Run (Return (VBool false)) [ActivateUser (VStr "bob")] Demo.alice_registered
      /\ published (log (activate module_globals Demo.backend Demo.request (VStr "bob")
                                  Demo.alice_registered))
         = []).
Proof.
  split.
  - exact (activate_publishes_iff_truthy module_globals Demo.backend Demo.request
             (VStr "alice") Demo.alice_registered (reflexivity module_globals)).
  - exact (activate_publishes_iff_truthy module_globals Demo.backend Demo.request
             (VStr "bob") Demo.alice_registered (reflexivity module_globals)).
Defined.

(** C5, as the spec words it, fails: the directory activates the account
    and returns the user, a receiver of [user_activated] raises, and
    [activate] raises that exception instead of returning the user. *)
Lemma activate_dispatch_error_is_not_a_return :
  activate_user (VStr "k1") Outage.no_receiver
    = (Return (VInst "User" 0), Outage.World [] [VStr "k1"] 0 false false true)
  /\ result (activate module_globals Demo.backend Demo.request (VStr "k1")
                      Outage.no_receiver)
     = Raise (Raised (VInst "ReceiverError" 0))
  /\ result (activate module_globals Demo.backend Demo.request (VStr "k1")
                      Outage.no_receiver)
     <> Return (VInst "User" 0).
Proof. vm_compute. repeat split; congruence. Qed.

(** C5, as the code has it: [activate] returns the value [activate_user]
    returned, false or true, the latter provided the dispatch of
    [user_activated] returns; an exception raised by [activate_user] or by
    the dispatch comes out of [activate] as it is, and [activate] raises
    none of its own.  In each case the calls made and the state left are
    those of [activate_user] and of the dispatch. *)
Theorem activate_returns_or_propagates
    {W : Type} `{AccountDirectory W, EventBus W}
    (G : gmap string value) (self request key : value) (w : W) :
  module_globals ⊆ G ->
  (forall (v : value) (w1 : W),
      activate_user key w = (Return v, w1) ->
      truthy v = false ->
      activate G self request key w = Run (Return v) [ActivateUser key] w1)
  /\ (forall (v r : value) (w1 w2 : W),
      activate_user key w = (Return v, w1) ->
      truthy v = true ->
      send user_activated (class_of self) v request w1 = (Return r, w2) ->
      activate G self request key w
      = Run (Return v)
            [ActivateUser key; Send user_activated (class_of self) v request] w2)
  /\ (forall (v : value) (x : exn) (w1 w2 : W),
      activate_user key w = (Return v, w1) ->
      truthy v = true ->
      send user_activated (class_of self) v request w1 = (Raise x, w2) ->
      activate G self request key w
      = Run (Raise x)
            [ActivateUser key; Send user_activated (class_of self) v request] w2)
  /\ (forall (x : exn) (w1 : W),
      activate_user key w = (Raise x, w1) ->
      activate G self request key w = Run (Raise x) [ActivateUser key] w1).
Proof.
  intros HG. rewrite (activate_run G HG). split; [|split; [|split]].
  - intros v w1 -> Hv. by rewrite Hv.
  - intros v r w1 w2 -> Hv Hsend. by rewrite Hv, Hsend.
  - intros v x w1 w2 -> Hv Hsend. by rewrite Hv, Hsend.
  - by intros x w1 ->.
Qed.

(** An unknown key, the key of a registered account, a receiver that
    raises, a database that is down. *)
Lemma activate_returns_or_propagates_demo :
  activate module_globals Demo.backend Demo.request (VStr "bob") Demo.alice_registered
    = Run (Return (VBool false)) [ActivateUser (VStr "bob")] Demo.alice_registered
  /\ activate module_globals Demo.backend Demo.request (VStr "alice")
              Demo.alice_registered
     = Run (Return (VInst "User" 0))
           [ActivateUser (VStr "alice");
            Send user_activated (class_of Demo.backend) (VInst "User" 0) Demo.request]
           (Demo.World (<["alice" := (0, true)]> ∅) ∅ true)
  /\ activate module_globals Demo.backend Demo.request (VStr "k1") Outage.no_receiver
     = Run (Raise (Raised (VInst "ReceiverError" 0)))
           [ActivateUser (VStr "k1");
            Send user_activated (class_of Demo.backend) (VInst "User" 0) Demo.request]
           (Outage.World [] [VStr "k1"] 0 false false true)
  /\ activate module_globals Demo.backend Demo.request (VStr "k1") Offline.start
     = Run (Raise (Raised (VInst "OperationalError" 0))) [ActivateUser (VStr "k1")]
           (Offline.World 1).
Proof.
  split; [|split; [|split]].
  - destruct (activate_returns_or_propagates module_globals Demo.backend Demo.request
                (VStr "bob") Demo.alice_registered (reflexivity module_globals))
      as (Hfalse & _).
    exact (Hfalse (VBool false) Demo.alice_registered eq_refl eq_refl).
  - destruct (activate_returns_or_propagates module_globals Demo.backend Demo.request
                (VStr "alice") Demo.alice_registered (reflexivity module_globals))
      as (_ & Htrue & _).
    exact (Htrue (VInst "User" 0) (VTuple []) _ _ eq_refl eq_refl eq_refl).
  - destruct (activate_returns_or_propagates module_globals Demo.backend Demo.request
                (VStr "k1") Outage.no_receiver (reflexivity module_globals))
      as (_ & _ & Hbus & _).
    exact (Hbus (VInst "User" 0) (Raised (VInst "ReceiverError" 0)) _ _
             eq_refl eq_refl eq_refl).
  - destruct (activate_returns_or_propagates module_globals Demo.backend Demo.request
                (VStr "k1") Offline.start (reflexivity module_globals))
      as (_ & _ & _ & Hdir).
    exact (Hdir (Raised (VInst "OperationalError" 0)) (Offline.World 1) eq_refl).
Defined.

(** ** [register] *)

Section Register.
Context {W : Type}.
Context `{SiteResolver W, AccountDirectory W, EventBus W, Settings W, Callables W}.
Variable G : gmap string value.
Variables self request : value.

(** The site lookup makes one outside call at most, and it is a call to
    the site resolver. *)
Lemma current_site_log (w : W) :
  log (current_site G request w) = []
  \/ log (current_site G request w) = [GetCurrent]
  \/ log (current_site G request w) = [MakeRequestSite request].
Proof.
  unfold current_site. py_simpl.
  destruct (G !! "Site"); [|by left]. py_simpl.
  destruct (sites_installed w).
  - unfold invoke. destruct (get_current w). by right; left.
  - py_simpl. destruct (G !! "RequestSite"); [|by left].
    unfold invoke. destruct (RequestSite request w). by right; right.
Qed.

Lemma current_site_creates_nothing (w : W) :
  created (log (current_site G request w)) = [].
Proof. by destruct (current_site_log w) as [-> | [-> | ->]]. Qed.

Lemma current_site_notifies_nothing (w : W) :
  notified (log (current_site G request w)) = []
  /\ published (log (current_site G request w)) = [].
Proof. by destruct (current_site_log w) as [-> | [-> | ->]]. Qed.

(** With the imports in place, the lookup is [Site.objects.get_current()]
    when the sites application is installed and [RequestSite(request)]
    when it is not. *)
Lemma current_site_run (w : W) :
  module_globals ⊆ G ->
  current_site G request w =
  if sites_installed w then invoke GetCurrent get_current w
  else invoke (MakeRequestSite request) (RequestSite request) w.
Proof.
  intros HG. unfold current_site. py_simpl.
  rewrite (imported G "Site" _ HG eq_refl). py_simpl.
  destruct (sites_installed w); [reflexivity|]. py_simpl.
  by rewrite (imported G "RequestSite" _ HG eq_refl).
Qed.

(** Every path through [register] once the three keyword arguments
    are there. *)
Lemma register_run (kwargs : gmap string value) (u e p : value) (w : W) :
  kwargs !! "username" = Some u ->
  kwargs !! "email" = Some e ->
  kwargs !! "password1" = Some p ->
  register G self request kwargs w =
  let rs := current_site G request w in
  match result rs with
  | Raise x => Run (Raise x) (log rs) (final rs)
  | Return site =>
    let create := CreateInactiveUser u e p site false in
    match G !! "RegistrationProfile" with
    | None => Run (Raise (NameError "RegistrationProfile")) (log rs) (final rs)
    | Some _ =>
      match create_inactive_user u e p site false (final rs) with
      | (Raise x, w2) => Run (Raise x) (log rs ++ [create]) w2
      | (Return user, w2) =>
        match G !! "send_new_user_notification" with
        | None =>
            Run (Raise (NameError "send_new_user_notification")) (log rs ++ [create]) w2
        | Some notify =>
          let notice := Call notify [user] in
          match call notify [user] w2 with
          | (Raise x, w3) => Run (Raise x) (log rs ++ [create; notice]) w3
          | (Return _, w3) =>
            let publish := Send user_registered (class_of self) user request in
            match G !! "signals" with
            | None => Run (Raise (NameError "signals")) (log rs ++ [create; notice]) w3
            | Some _ =>
              match send user_registered (class_of self) user request w3 with
              | (Raise x, w4) => Run (Raise x) (log rs ++ [create; notice; publish]) w4
              | (Return _, w4) => Run (Return user) (log rs ++ [create; notice; publish]) w4
              end
            end
          end
        end
      end
    end
  end.
Proof.
  intros Hu He Hp. unfold register.
  rewrite bind_subscript, Hu, bind_subscript, He, bind_subscript, Hp.
  unfold py_bind at 1.
  destruct (current_site G request w) as [[site|x] l1 w1]; simpl; [|reflexivity].
  rewrite bind_load_global.
  destruct (G !! "RegistrationProfile"); simpl; [|by rewrite app_nil_r].
  rewrite bind_invoke.
  destruct (create_inactive_user u e p site false w1) as [[user|x] w2]; simpl;
    [|reflexivity].
  rewrite bind_load_global.
  destruct (G !! "send_new_user_notification") as [notify|]; simpl; [|reflexivity].
  rewrite bind_invoke.
  destruct (call notify [user] w2) as [[r|x] w3]; simpl; [|reflexivity].
  rewrite bind_load_global.
  destruct (G !! "signals"); simpl; [|reflexivity].
  rewrite bind_invoke.
  by destruct (send user_registered (class_of self) user request w3) as [[r'|x] w4].
Qed.

End Register.

(** C10: [register] takes its inputs from the keys ["username"],
    ["email"] and ["password1"] of the keyword arguments and from no other
    key; when one of the three is missing it raises [KeyError] for the first
    missing one, in that order, having called nothing outside the module. *)
Theorem register_keyword_arguments
    {W : Type} `{SiteResolver W, AccountDirectory W, EventBus W, Callables W}
    (G : gmap string value) (self request : value) (kwargs : gmap string value) (w : W) :
  (forall kwargs' : gmap string value,
      kwargs' !! "username" = kwargs !! "username" ->
      kwargs' !! "email" = kwargs !! "email" ->
      kwargs' !! "password1" = kwargs !! "password1" ->
      register G self request kwargs' w = register G self request kwargs w)
  /\ (kwargs !! "username" = None \/ kwargs !! "email" = None
      \/ kwargs !! "password1" = None ->
      register G self request kwargs w =
      Run (Raise (KeyError
                    match kwargs !! "username", kwargs !! "email" with
                    | None, _ => "username"
                    | Some _, None => "email"
                    | Some _, Some _ => "password1"
                    end)) [] w).
Proof.
  split.
  - intros kwargs' Hu He Hp. unfold register.
    rewrite !bind_subscript, Hu.
    destruct (kwargs !! "username"); [|reflexivity].
    rewrite !bind_subscript, He.
    destruct (kwargs !! "email"); [|reflexivity].
    rewrite !bind_subscript, Hp. reflexivity.
  - intros Hmissing. unfold register. rewrite bind_subscript.
    destruct (kwargs !! "username"); [|reflexivity].
    rewrite bind_subscript.
    destruct (kwargs !! "email"); [|reflexivity].
    rewrite bind_subscript.
    destruct (kwargs !! "password1"); [|reflexivity].
    by destruct Hmissing as [? | [? | ?]].
Qed.

Lemma register_keyword_arguments_demo :
  register Demo.completed_globals Demo.backend Demo.request
           (delete "password2" Demo.alice) Demo.empty_world
  = register Demo.completed_globals Demo.backend Demo.request Demo.alice
             Demo.empty_world
  /\ register Demo.completed_globals Demo.backend Demo.request Demo.password_form
              Demo.empty_world
     = Run (Raise (KeyError "password1")) [] Demo.empty_world.
Proof.
  split.
  - apply (register_keyword_arguments Demo.completed_globals Demo.backend Demo.request
             Demo.alice Demo.empty_world); reflexivity.
  - apply (register_keyword_arguments Demo.completed_globals Demo.backend Demo.request
             Demo.password_form Demo.empty_world).
    right; right. reflexivity.
Defined.




Example register_creates_without_email_demo :
  created (log (register module_globals Demo.backend Demo.request Demo.alice
                         Demo.empty_world))
  = [CreateInactiveUser (VStr "alice") (VStr "alice@example.com") (VStr "s3cret")
                        (VInst "Site" 1) false].
Proof. reflexivity. Qed.

(** C8: with the three keyword arguments there, [register] looks the site
    up by one call: [Site.objects.get_current()] when
    [Site._meta.installed] is set, [RequestSite(request)] otherwise.  If
    that call raises, [register] ends with its exception; if it returns,
    the site it returned is the one [create_inactive_user] is called with,
    on the state the lookup left. *)
Theorem register_site_resolution
    {W : Type} `{SiteResolver W, AccountDirectory W, EventBus W, Callables W}
    (G : gmap string value) (self request : value) (kwargs : gmap string value)
    (u e p : value) (w : W) :
  module_globals ⊆ G ->
  kwargs !! "username" = Some u ->
  kwargs !! "email" = Some e ->
  kwargs !! "password1" = Some p ->
  current_site G request w =
    (let '(r, w1) :=
       if sites_installed w then get_current w else RequestSite request w in
     Run r [if sites_installed w then GetCurrent else MakeRequestSite request] w1)
  /\ register G self request kwargs w =
    let lookup := if sites_installed w then GetCurrent else MakeRequestSite request in
    match (if sites_installed w then get_current w else RequestSite request w) with
    | (Raise x, w1) => Run (Raise x) [lookup] w1
    | (Return site, w1) =>
      match create_inactive_user u e p site false w1 with
      | (Raise x, w2) => Run (Raise x) [lookup; CreateInactiveUser u e p site false] w2
      | (Return user, w2) =>
        match G !! "send_new_user_notification" with
        | None =>
            Run (Raise (NameError "send_new_user_notification"))
                (lookup :: [CreateInactiveUser u e p site false]) w2
        | Some notify =>
          match call notify [user] w2 with
          | (Raise x, w3) =>
              Run (Raise x)
                  (lookup :: [CreateInactiveUser u e p site false; Call notify [user]]) w3
          | (Return _, w3) =>
            match send user_registered (class_of self) user request w3 with
            | (Raise x, w4) =>
                Run (Raise x)
                    (lookup :: [CreateInactiveUser u e p site false; Call notify [user];
                      Send user_registered (class_of self) user request]) w4
            | (Return _, w4) =>
                Run (Return user)
                    (lookup :: [CreateInactiveUser u e p site false; Call notify [user];
                      Send user_registered (class_of self) user request]) w4
            end
          end
        end
      end
    end.
Proof.
  intros HG Hu He Hp.
  rewrite (register_run G self request kwargs u e p w Hu He Hp).
  rewrite (current_site_run G request w HG).
  rewrite (imported G "RegistrationProfile" _ HG eq_refl).
  rewrite (imported G "signals" _ HG eq_refl).
  unfold invoke.
  destruct (sites_installed w).
  - by destruct (get_current w) as [[site|x] w1].
  - by destruct (RequestSite request w) as [[site|x] w1].
Qed.

(** The two branches, on a deployment with and one without the sites
    application. *)
Lemma register_site_resolution_demo :
  (current_site Demo.completed_globals Demo.request Demo.empty_world
   = Run (Return (VInst "Site" 1)) [GetCurrent] Demo.empty_world
   /\ register Demo.completed_globals Demo.backend Demo.request Demo.alice
               Demo.empty_world
      = Run (Return (VInst "User" 0))
            [GetCurrent;
             CreateInactiveUser (VStr "alice") (VStr "alice@example.com")
                                (VStr "s3cret") (VInst "Site" 1) false;
             Call Demo.notifier [VInst "User" 0];
             Send user_registered (class_of Demo.backend) (VInst "User" 0)
                  Demo.request]
            Demo.alice_registered)
  /\ (current_site Demo.completed_globals Demo.request Demo.single_site
      = Run (Return (VInst "RequestSite" 0)) [MakeRequestSite Demo.request]
            Demo.single_site
      /\ register Demo.completed_globals Demo.backend Demo.request Demo.alice
                  Demo.single_site
         = Run (Return (VInst "User" 0))
               [MakeRequestSite Demo.request;
                CreateInactiveUser (VStr "alice") (VStr "alice@example.com")
                                   (VStr "s3cret") (VInst "RequestSite" 0) false;
                Call Demo.notifier [VInst "User" 0];
                Send user_registered (class_of Demo.backend) (VInst "User" 0)
                     Demo.request]
               (Demo.World (<["alice" := (0, false)]> ∅) ∅ false)).
Proof.
  assert (HG : module_globals ⊆ Demo.completed_globals).
  { apply insert_subseteq. reflexivity. }
  split.
  - exact (register_site_resolution Demo.completed_globals Demo.backend Demo.request
             Demo.alice (VStr "alice") (VStr "alice@example.com") (VStr "s3cret")
             Demo.empty_world HG eq_refl eq_refl eq_refl).
  - exact (register_site_resolution Demo.completed_globals Demo.backend Demo.request
             Demo.alice (VStr "alice") (VStr "alice@example.com") (VStr "s3cret")
             Demo.single_site HG eq_refl eq_refl eq_refl).
Defined.

(** C6: when [create_inactive_user] raises, [register] ends with that same
    exception, in the state the directory left, having neither called the
    notification function nor published a signal. *)
Theorem register_propagates_creation_error
    {W : Type} `{SiteResolver W, AccountDirectory W, EventBus W, Callables W}
    (G : gmap string value) (self request : value) (kwargs : gmap string value)
    (u e p site : value) (l1 : list event) (x : exn) (w w1 w2 : W) :
  module_globals ⊆ G ->
  kwargs !! "username" = Some u ->
  kwargs !! "email" = Some e ->
  kwargs !! "password1" = Some p ->
  current_site G request w = Run (Return site) l1 w1 ->
  create_inactive_user u e p site false w1 = (Raise x, w2) ->
  register G self request kwargs w
    = Run (Raise x) (l1 ++ [CreateInactiveUser u e p site false]) w2
  /\ notified (log (register G self request kwargs w)) = []
  /\ published (log (register G self request kwargs w)) = [].
Proof.
  intros HG Hu He Hp Hsite Hcreate.
  pose proof (current_site_notifies_nothing G request w) as [Hn Hp'].
  rewrite (register_run G self request kwargs u e p w Hu He Hp).
  rewrite (imported G "RegistrationProfile" _ HG eq_refl).
  rewrite Hsite in *. simpl in *. rewrite Hcreate. simpl.
  unfold notified, published in *.
  rewrite !List.filter_app, Hn, Hp'. done.
Qed.

(** A second registration under a username that is taken. *)
Lemma register_propagates_creation_error_demo :
  register Demo.completed_globals Demo.backend Demo.request Demo.alice
           Demo.alice_registered
  = Run (Raise (Raised (VInst "IntegrityError" 0)))
        [GetCurrent;
         CreateInactiveUser (VStr "alice") (VStr "alice@example.com") (VStr "s3cret")
                            (VInst "Site" 1) false] Demo.alice_registered
  /\ notified (log (register Demo.completed_globals Demo.backend Demo.request Demo.alice
                              Demo.alice_registered)) = []
  /\ published (log (register Demo.completed_globals Demo.backend Demo.request Demo.alice
                               Demo.alice_registered)) = [].
Proof.
  assert (HG : module_globals ⊆ Demo.completed_globals).
  { apply insert_subseteq. reflexivity. }
  exact (register_propagates_creation_error Demo.completed_globals Demo.backend
           Demo.request Demo.alice (VStr "alice") (VStr "alice@example.com")
           (VStr "s3cret") (VInst "Site" 1) [GetCurrent]
           (Raised (VInst "IntegrityError" 0))
           Demo.alice_registered Demo.alice_registered Demo.alice_registered
           HG eq_refl eq_refl eq_refl eq_refl eq_refl).
Defined.

(** C1 on the module as it stands: once [create_inactive_user] has
    returned the new user, [register] raises [NameError], because no
    statement of the module binds [send_new_user_notification].  The
    account exists, no notification has been sent, no signal published,
    and the user is not returned. *)
Theorem register_notifier_unbound
    {W : Type} `{SiteResolver W, AccountDirectory W, EventBus W, Callables W}
    (self request : value) (kwargs : gmap string value)
    (u e p site user : value) (l1 : list event) (w w1 w2 : W) :
  kwargs !! "username" = Some u ->
  kwargs !! "email" = Some e ->
  kwargs !! "password1" = Some p ->
  current_site module_globals request w = Run (Return site) l1 w1 ->
  create_inactive_user u e p site false w1 = (Return user, w2) ->
  register module_globals self request kwargs w
    = Run (Raise (NameError "send_new_user_notification"))
          (l1 ++ [CreateInactiveUser u e p site false]) w2
  /\ notified (log (register module_globals self request kwargs w)) = []
  /\ published (log (register module_globals self request kwargs w)) = [].
Proof.
  intros Hu He Hp Hsite Hcreate.
  pose proof (current_site_notifies_nothing module_globals request w) as [Hn Hp'].
  rewrite (register_run module_globals self request kwargs u e p w Hu He Hp).
  rewrite Hsite in *. simpl in *.
  change (module_globals !! "RegistrationProfile")
    with (Some (VNamed "registration.models.RegistrationProfile")).
  rewrite Hcreate. simpl.
  change (module_globals !! "send_new_user_notification") with (@None value).
  simpl. unfold notified, published in *.
  rewrite !List.filter_app, Hn, Hp'. done.
Qed.

(** A first registration, with a free username. *)
Lemma register_notifier_unbound_demo :
  register module_globals Demo.backend Demo.request Demo.alice Demo.empty_world
  = Run (Raise (NameError "send_new_user_notification"))
        [GetCurrent;
         CreateInactiveUser (VStr "alice") (VStr "alice@example.com") (VStr "s3cret")
                            (VInst "Site" 1) false]
        Demo.alice_registered
  /\ notified (log (register module_globals Demo.backend Demo.request Demo.alice
                              Demo.empty_world)) = []
  /\ published (log (register module_globals Demo.backend Demo.request Demo.alice
                               Demo.empty_world)) = [].
Proof.
  exact (register_notifier_unbound Demo.backend Demo.request Demo.alice
           (VStr "alice") (VStr "alice@example.com") (VStr "s3cret")
           (VInst "Site" 1) (VInst "User" 0) [GetCurrent]
           Demo.empty_world Demo.empty_world Demo.alice_registered
           eq_refl eq_refl eq_refl eq_refl eq_refl).
Defined.

(** X9: what [register] does once a function is bound to the name and that
    function and the signal dispatch return: one call of the function on
    the new user, one [user_registered] signal with the new user, the
    request and the class of the backend as sender, and the new user as
    result. *)
Lemma register_with_notifier
    {W : Type} `{SiteResolver W, AccountDirectory W, EventBus W, Callables W}
    (G : gmap string value) (self request : value) (kwargs : gmap string value)
    (u e p site user notify r1 r2 : value) (l1 : list event) (w w1 w2 w3 w4 : W) :
  module_globals ⊆ G ->
  G !! "send_new_user_notification" = Some notify ->
  kwargs !! "username" = Some u ->
  kwargs !! "email" = Some e ->
  kwargs !! "password1" = Some p ->
  current_site G request w = Run (Return site) l1 w1 ->
  create_inactive_user u e p site false w1 = (Return user, w2) ->
  call notify [user] w2 = (Return r1, w3) ->
  send user_registered (class_of self) user request w3 = (Return r2, w4) ->
  register G self request kwargs w
    = Run (Return user)
          (l1 ++ [CreateInactiveUser u e p site false;
                  Call notify [user];
                  Send user_registered (class_of self) user request]) w4
  /\ notified (log (register G self request kwargs w)) = [Call notify [user]]
  /\ published (log (register G self request kwargs w))
     = [Send user_registered (class_of self) user request].
Proof.
  intros HG Hnotify Hu He Hp Hsite Hcreate Hcall Hsend.
  pose proof (current_site_notifies_nothing G request w) as [Hn Hp'].
  rewrite (register_run G self request kwargs u e p w Hu He Hp).
  rewrite (imported G "RegistrationProfile" _ HG eq_refl).
  rewrite (imported G "signals" _ HG eq_refl).
  rewrite Hsite in *. simpl in *.
  rewrite Hcreate, Hnotify. simpl. rewrite Hcall, Hsend. simpl.
  unfold notified, published in *.
  rewrite !List.filter_app, Hn, Hp'. done.
Qed.

Example register_with_notifier_demo :
  register Demo.completed_globals Demo.backend Demo.request Demo.alice Demo.empty_world
  = Run (Return (VInst "User" 0))
        [GetCurrent;
         CreateInactiveUser (VStr "alice") (VStr "alice@example.com") (VStr "s3cret")
                            (VInst "Site" 1) false;
         Call Demo.notifier [VInst "User" 0];
         Send user_registered (class_of Demo.backend) (VInst "User" 0) Demo.request]
        Demo.alice_registered.
Proof. reflexivity. Qed.

(** The option the code reads, set to [False]. *)
Example registration_closed_by_vendor_option :
  registration_allowed module_globals Demo.request
    (Demo.World ∅ (<["VENDOR_REGISTRATION_OPEN" := VBool false]> ∅) true)
  = Run (Return (VBool false)) []
        (Demo.World ∅ (<["VENDOR_REGISTRATION_OPEN" := VBool false]> ∅) true).
Proof. reflexivity. Qed.

(** An activation key is good once: the second [activate] with the key of
    alice returns [False] and publishes nothing. *)
Example activate_twice :
  log (activate module_globals Demo.backend Demo.request (VStr "alice")
         (final (activate module_globals Demo.backend Demo.request (VStr "alice")
                          Demo.alice_registered)))
  = [ActivateUser (VStr "alice")]
  /\ result (activate module_globals Demo.backend Demo.request (VStr "alice")
               (final (activate module_globals Demo.backend Demo.request (VStr "alice")
                                Demo.alice_registered)))
     = Return (VBool false).
Proof. split; reflexivity. Qed.

(** ** Further properties of [register] and [activate] *)

Lemma completed_globals_extend : module_globals ⊆ Demo.completed_globals.
Proof. apply insert_subseteq. reflexivity. Qed.

Section RegisterPaths.
Context {W : Type}.
Context `{SiteResolver W, AccountDirectory W, EventBus W, Callables W}.
Variable G : gmap string value.
Variables self request : value.

(** A site lookup that returns has made its one call to the resolver. *)
Lemma current_site_returns (site : value) (w : W) :
  result (current_site G request w) = Return site ->
  exists s : event, is_site_lookup s = true /\ log (current_site G request w) = [s].
Proof.
  unfold current_site. py_simpl.
  destruct (G !! "Site") as [cls|]; [|discriminate]. py_simpl.
  destruct (sites_installed w).
  - unfold invoke. destruct (get_current w) as [[found|x] w1]; [|discriminate].
    intros _. by exists GetCurrent.
  - py_simpl. destruct (G !! "RequestSite") as [cls'|]; [|discriminate].
    unfold invoke. destruct (RequestSite request w) as [[found|x] w1]; [|discriminate].
    intros _. by exists (MakeRequestSite request).
Qed.

(** A missing keyword argument ends [register] with [KeyError] and an
    empty log. *)
Lemma register_missing (kwargs : gmap string value) (w : W) :
  kwargs !! "username" = None \/ kwargs !! "email" = None
  \/ kwargs !! "password1" = None ->
  exists key : string, register G self request kwargs w = Run (Raise (KeyError key)) [] w.
Proof.
  intros Hmissing. unfold register. rewrite bind_subscript.
  destruct (kwargs !! "username"); [|by eexists].
  rewrite bind_subscript.
  destruct (kwargs !! "email"); [|by eexists].
  rewrite bind_subscript.
  destruct (kwargs !! "password1"); [|by eexists].
  by destruct Hmissing as [? | [? | ?]].
Qed.

End RegisterPaths.

(** X1: whenever [register] returns a value, in any namespace and whatever
    the framework does, the three keyword arguments were there and each
    collaborator was called and returned, each on the state the one before
    left: the site lookup, [create_inactive_user] with [send_email=False],
    whose answer is the value returned, the notification function on that
    user, the dispatch of [user_registered] for that user. *)
Theorem register_returns_created_user
    {W : Type} `{SiteResolver W, AccountDirectory W, EventBus W, Callables W}
    (G : gmap string value) (self request : value) (kwargs : gmap string value)
    (user : value) (w : W) :
  result (register G self request kwargs w) = Return user ->
  exists (s : event) (u e p site notify r1 r2 : value) (w1 w2 w3 w4 : W),
    is_site_lookup s = true
    /\ kwargs !! "username" = Some u
    /\ kwargs !! "email" = Some e
    /\ kwargs !! "password1" = Some p
    /\ current_site G request w = Run (Return site) [s] w1
    /\ create_inactive_user u e p site false w1 = (Return user, w2)
    /\ G !! "send_new_user_notification" = Some notify
    /\ call notify [user] w2 = (Return r1, w3)
    /\ send user_registered (class_of self) user request w3 = (Return r2, w4)
    /\ register G self request kwargs w
       = Run (Return user)
             [s; CreateInactiveUser u e p site false; Call notify [user];
              Send user_registered (class_of self) user request] w4.
Proof.
  intros Hret.
  destruct (kwargs !! "username") as [u|] eqn:Hu;
    [|destruct (register_missing G self request kwargs w (or_introl Hu)) as [k Hk];
      by rewrite Hk in Hret].
  destruct (kwargs !! "email") as [e|] eqn:He;
    [|destruct (register_missing G self request kwargs w (or_intror (or_introl He)))
        as [k Hk]; by rewrite Hk in Hret].
  destruct (kwargs !! "password1") as [p|] eqn:Hp;
    [|destruct (register_missing G self request kwargs w (or_intror (or_intror Hp)))
        as [k Hk]; by rewrite Hk in Hret].
  rewrite (register_run G self request kwargs u e p w Hu He Hp) in *.
  pose proof (fun site => current_site_returns G request site w) as Hsite.
  destruct (current_site G request w) as [[site|x] l1 w1]; simpl in *; [|done].
  destruct (Hsite site eq_refl) as (s & Hs & ->).
  destruct (G !! "RegistrationProfile"); [|done].
  destruct (create_inactive_user u e p site false w1) as [[created_user|x] w2]
    eqn:Hcreate; simpl in *; [|done].
  destruct (G !! "send_new_user_notification") as [notify|]; [|done].
  destruct (call notify [created_user] w2) as [[r1|x] w3] eqn:Hcall; simpl in *;
    [|done].
  destruct (G !! "signals"); [|done].
  destruct (send user_registered (class_of self) created_user request w3)
    as [[r2|x] w4] eqn:Hsend; simpl in *; [|done].
  injection Hret as ->.
  by exists s, u, e, p, site, notify, r1, r2, w1, w2, w3, w4.
Qed.

Lemma register_returns_created_user_demo :
  exists (s : event) (u e p site notify r1 r2 : value) (w1 w2 w3 w4 : Outage.world),
    is_site_lookup s = true
    /\ Demo.alice !! "username" = Some u
    /\ Demo.alice !! "email" = Some e
    /\ Demo.alice !! "password1" = Some p
    /\ current_site Demo.completed_globals Demo.request Outage.healthy
       = Run (Return site) [s] w1
    /\ create_inactive_user u e p site false w1 = (Return (VInst "User" 0), w2)
    /\ Demo.completed_globals !! "send_new_user_notification" = Some notify
    /\ call notify [VInst "User" 0] w2 = (Return r1, w3)
    /\ send user_registered (class_of Demo.backend) (VInst "User" 0) Demo.request w3
       = (Return r2, w4)
    /\ register Demo.completed_globals Demo.backend Demo.request Demo.alice
                Outage.healthy
       = Run (Return (VInst "User" 0))
             [s; CreateInactiveUser u e p site false; Call notify [VInst "User" 0];
              Send user_registered (class_of Demo.backend) (VInst "User" 0)
                   Demo.request] w4.
Proof.
  exact (register_returns_created_user Demo.completed_globals Demo.backend Demo.request
           Demo.alice (VInst "User" 0) Outage.healthy eq_refl).
Defined.

(** X2: on the module as it stands, [register] never returns: every call,
    whatever its arguments and whatever the framework does, ends in an
    exception, and none calls a notification function or publishes a
    signal. *)
Theorem register_shipped_never_returns
    {W : Type} `{SiteResolver W, AccountDirectory W, EventBus W, Callables W}
    (self request : value) (kwargs : gmap string value) (w : W) :
  (exists x : exn, result (register module_globals self request kwargs w) = Raise x)
  /\ notified (log (register module_globals self request kwargs w)) = []
  /\ published (log (register module_globals self request kwargs w)) = [].
Proof.
  destruct (kwargs !! "username") as [u|] eqn:Hu;
    [|destruct (register_missing module_globals self request kwargs w (or_introl Hu))
        as [k ->]; by eauto].
  destruct (kwargs !! "email") as [e|] eqn:He;
    [|destruct (register_missing module_globals self request kwargs w
                  (or_intror (or_introl He))) as [k ->]; by eauto].
  destruct (kwargs !! "password1") as [p|] eqn:Hp;
    [|destruct (register_missing module_globals self request kwargs w
                  (or_intror (or_intror Hp))) as [k ->]; by eauto].
  rewrite (register_run module_globals self request kwargs u e p w Hu He Hp).
  pose proof (current_site_notifies_nothing module_globals request w) as [Hn Hp'].
  change (module_globals !! "RegistrationProfile")
    with (Some (VNamed "registration.models.RegistrationProfile")).
  change (module_globals !! "send_new_user_notification") with (@None value).
  destruct (current_site module_globals request w) as [[site|x] l1 w1]; simpl in *;
    [|by eauto].
  destruct (create_inactive_user u e p site false w1) as [[user|x] w2]; simpl;
    unfold notified, published in *; rewrite !List.filter_app, Hn, Hp'; by eauto.
Qed.

(** X3: when the site lookup raises, [register] ends with that exception
    in the state the lookup left: [create_inactive_user] is not called, so
    no account is created, and nothing is notified or published. *)
Theorem register_site_failure
    {W : Type} `{SiteResolver W, AccountDirectory W, EventBus W, Callables W}
    (G : gmap string value) (self request : value) (kwargs : gmap string value)
    (u e p : value) (x : exn) (l1 : list event) (w w1 : W) :
  kwargs !! "username" = Some u ->
  kwargs !! "email" = Some e ->
  kwargs !! "password1" = Some p ->
  current_site G request w = Run (Raise x) l1 w1 ->
  register G self request kwargs w = Run (Raise x) l1 w1
  /\ created (log (register G self request kwargs w)) = []
  /\ notified (log (register G self request kwargs w)) = []
  /\ published (log (register G self request kwargs w)) = [].
Proof.
  intros Hu He Hp Hsite.
  pose proof (current_site_creates_nothing G request w) as Hc.
  pose proof (current_site_notifies_nothing G request w) as [Hn Hp'].
  rewrite (register_run G self request kwargs u e p w Hu He Hp).
  rewrite Hsite in *. done.
Qed.

Lemma register_site_failure_demo :
  register Demo.completed_globals Demo.backend Demo.request Demo.alice Outage.no_site
  = Run (Raise (Raised (VInst "Site.DoesNotExist" 0))) [GetCurrent] Outage.no_site
  /\ created (log (register Demo.completed_globals Demo.backend Demo.request Demo.alice
                            Outage.no_site)) = []
  /\ notified (log (register Demo.completed_globals Demo.backend Demo.request Demo.alice
                             Outage.no_site)) = []
  /\ published (log (register Demo.completed_globals Demo.backend Demo.request Demo.alice
                              Outage.no_site)) = [].
Proof.
  exact (register_site_failure Demo.completed_globals Demo.backend Demo.request
           Demo.alice (VStr "alice") (VStr "alice@example.com") (VStr "s3cret")
           (Raised (VInst "Site.DoesNotExist" 0)) [GetCurrent]
           Outage.no_site Outage.no_site eq_refl eq_refl eq_refl eq_refl).
Defined.

(** X4: when the notification function raises, [register] ends with that
    exception after the account has been created: the state is the one
    the directory and then the function left (nothing is undone), and
    [user_registered] is not published. *)
Theorem register_notifier_failure
    {W : Type} `{SiteResolver W, AccountDirectory W, EventBus W, Callables W}
    (G : gmap string value) (self request : value) (kwargs : gmap string value)
    (u e p site user notify : value) (x : exn) (l1 : list event) (w w1 w2 w3 : W) :
  module_globals ⊆ G ->
  G !! "send_new_user_notification" = Some notify ->
  kwargs !! "username" = Some u ->
  kwargs !! "email" = Some e ->
  kwargs !! "password1" = Some p ->
  current_site G request w = Run (Return site) l1 w1 ->
  create_inactive_user u e p site false w1 = (Return user, w2) ->
  call notify [user] w2 = (Raise x, w3) ->
  register G self request kwargs w
    = Run (Raise x) (l1 ++ [CreateInactiveUser u e p site false; Call notify [user]]) w3
  /\ published (log (register G self request kwargs w)) = [].
Proof.
  intros HG Hnotify Hu He Hp Hsite Hcreate Hcall.
  pose proof (current_site_notifies_nothing G request w) as [_ Hp'].
  rewrite (register_run G self request kwargs u e p w Hu He Hp).
  rewrite (imported G "RegistrationProfile" _ HG eq_refl).
  rewrite Hsite in *. simpl in *.
  rewrite Hcreate, Hnotify. simpl. rewrite Hcall. simpl.
  unfold published in *. by rewrite List.filter_app, Hp'.
Qed.

Lemma register_notifier_failure_demo :
  register Demo.completed_globals Demo.backend Demo.request Demo.alice Outage.no_mail
  = Run (Raise (Raised (VInst "SMTPException" 0)))
        [GetCurrent;
         CreateInactiveUser (VStr "alice") (VStr "alice@example.com") (VStr "s3cret")
                            (VInst "Site" 1) false;
         Call Demo.notifier [VInst "User" 0]]
        (Outage.World [VStr "alice"] [] 0 false true false)
  /\ published (log (register Demo.completed_globals Demo.backend Demo.request Demo.alice
                              Outage.no_mail)) = [].
Proof.
  exact (register_notifier_failure Demo.completed_globals Demo.backend Demo.request
           Demo.alice (VStr "alice") (VStr "alice@example.com") (VStr "s3cret")
           (VInst "Site" 1) (VInst "User" 0) Demo.notifier
           (Raised (VInst "SMTPException" 0)) [GetCurrent]
           Outage.no_mail Outage.no_mail
           (Outage.World [VStr "alice"] [] 0 false true false)
           (Outage.World [VStr "alice"] [] 0 false true false)
           completed_globals_extend eq_refl eq_refl eq_refl eq_refl eq_refl eq_refl
           eq_refl).
Defined.

(** X5: when the dispatch of [user_registered] raises, [register] ends
    with that exception and does not return the user, although the account
    has been created and the notification function has run. *)
Theorem register_signal_failure
    {W : Type} `{SiteResolver W, AccountDirectory W, EventBus W, Callables W}
    (G : gmap string value) (self request : value) (kwargs : gmap string value)
    (u e p site user notify r1 : value) (x : exn) (l1 : list event)
    (w w1 w2 w3 w4 : W) :
  module_globals ⊆ G ->
  G !! "send_new_user_notification" = Some notify ->
  kwargs !! "username" = Some u ->
  kwargs !! "email" = Some e ->
  kwargs !! "password1" = Some p ->
  current_site G request w = Run (Return site) l1 w1 ->
  create_inactive_user u e p site false w1 = (Return user, w2) ->
  call notify [user] w2 = (Return r1, w3) ->
  send user_registered (class_of self) user request w3 = (Raise x, w4) ->
  register G self request kwargs w
  = Run (Raise x)
        (l1 ++ [CreateInactiveUser u e p site false; Call notify [user];
                Send user_registered (class_of self) user request]) w4.
Proof.
  intros HG Hnotify Hu He Hp Hsite Hcreate Hcall Hsend.
  rewrite (register_run G self request kwargs u e p w Hu He Hp).
  rewrite (imported G "RegistrationProfile" _ HG eq_refl).
  rewrite (imported G "signals" _ HG eq_refl).
  rewrite Hsite. simpl.
  rewrite Hcreate, Hnotify. simpl. rewrite Hcall, Hsend. done.
Qed.

Lemma register_signal_failure_demo :
  register Demo.completed_globals Demo.backend Demo.request Demo.alice
           Outage.no_receiver
  = Run (Raise (Raised (VInst "ReceiverError" 0)))
        [GetCurrent;
         CreateInactiveUser (VStr "alice") (VStr "alice@example.com") (VStr "s3cret")
                            (VInst "Site" 1) false;
         Call Demo.notifier [VInst "User" 0];
         Send user_registered (class_of Demo.backend) (VInst "User" 0) Demo.request]
        (Outage.World [VStr "alice"] [] 1 false false true).
Proof.
  exact (register_signal_failure Demo.completed_globals Demo.backend Demo.request
           Demo.alice (VStr "alice") (VStr "alice@example.com") (VStr "s3cret")
           (VInst "Site" 1) (VInst "User" 0) Demo.notifier VNone
           (Raised (VInst "ReceiverError" 0)) [GetCurrent]
           Outage.no_receiver Outage.no_receiver
           (Outage.World [VStr "alice"] [] 0 false false true)
           (Outage.World [VStr "alice"] [] 1 false false true)
           (Outage.World [VStr "alice"] [] 1 false false true)
           completed_globals_extend eq_refl eq_refl eq_refl eq_refl eq_refl eq_refl
           eq_refl eq_refl).
Defined.

(** X8: when the dispatch of [user_activated] raises, [activate] ends with
    that exception instead of returning the user, in the state the
    dispatch left: the activation that [activate_user] made stays. *)
Theorem activate_signal_failure
    {W : Type} `{AccountDirectory W, EventBus W}
    (G : gmap string value) (self request key user : value) (x : exn) (w w1 w2 : W) :
  module_globals ⊆ G ->
  activate_user key w = (Return user, w1) ->
  truthy user = true ->
  send user_activated (class_of self) user request w1 = (Raise x, w2) ->
  activate G self request key w
  = Run (Raise x)
        [ActivateUser key; Send user_activated (class_of self) user request] w2.
Proof.
  intros HG Hact Htrue Hsend.
  by rewrite (activate_run G HG), Hact, Htrue, Hsend.
Qed.

Lemma activate_signal_failure_demo :
  activate module_globals Demo.backend Demo.request (VStr "k1") Outage.no_receiver
  = Run (Raise (Raised (VInst "ReceiverError" 0)))
        [ActivateUser (VStr "k1");
         Send user_activated (class_of Demo.backend) (VInst "User" 0) Demo.request]
        (Outage.World [] [VStr "k1"] 0 false false true).
Proof.
  exact (activate_signal_failure module_globals Demo.backend Demo.request (VStr "k1")
           (VInst "User" 0) (Raised (VInst "ReceiverError" 0))
           Outage.no_receiver
           (Outage.World [] [VStr "k1"] 0 false false true)
           (Outage.World [] [VStr "k1"] 0 false false true)
           (reflexivity module_globals) eq_refl eq_refl eq_refl).
Defined.

(** A run of [register] on the completed namespace in which every
    collaborator returns: the account is created, then the mail sent. *)
Lemma register_with_notifier_healthy :
  register Demo.completed_globals Demo.backend Demo.request Demo.alice Outage.healthy
  = Run (Return (VInst "User" 0))
        ([GetCurrent]
         ++ [CreateInactiveUser (VStr "alice") (VStr "alice@example.com")
                                (VStr "s3cret") (VInst "Site" 1) false;
             Call Demo.notifier [VInst "User" 0];
             Send user_registered (class_of Demo.backend) (VInst "User" 0)
                  Demo.request])
        (Outage.World [VStr "alice"] [] 1 false false false)
  /\ notified (log (register Demo.completed_globals Demo.backend Demo.request
                             Demo.alice Outage.healthy))
     = [Call Demo.notifier [VInst "User" 0]]
  /\ published (log (register Demo.completed_globals Demo.backend Demo.request
                              Demo.alice Outage.healthy))
     = [Send user_registered (class_of Demo.backend) (VInst "User" 0) Demo.request].
Proof.
  exact (register_with_notifier Demo.completed_globals Demo.backend Demo.request
           Demo.alice (VStr "alice") (VStr "alice@example.com") (VStr "s3cret")
           (VInst "Site" 1) (VInst "User" 0) Demo.notifier VNone (VTuple [])
           [GetCurrent] Outage.healthy Outage.healthy
           (Outage.World [VStr "alice"] [] 0 false false false)
           (Outage.World [VStr "alice"] [] 1 false false false)
           (Outage.World [VStr "alice"] [] 1 false false false)
           completed_globals_extend eq_refl eq_refl eq_refl eq_refl eq_refl eq_refl
           eq_refl eq_refl).
Defined.
